(** * Remittance split versus contract allocations

    A shallow embedding of [scripts/verify_cross_contract_invariants.py]:
    the split configuration, the splitter, the tracker of the four
    destination contracts and the two scenario drivers whose outcome the
    specification quotes.

    Python integers are unbounded, so they are modelled by [Z]; Python's
    floor division [//] is [Z.div] (both round towards minus infinity for a
    positive divisor) and [abs] is [Z.abs].  A raised exception is a value
    of [exception]; code that may raise lives in the [result] monad.  The
    tracker is mutated in place by the script: here every mutation returns
    the new tracker. *)

From Stdlib Require Import ZArith List String Lia Bool DecimalString.
From Stdlib Require Import Permutation.
Import ListNotations.
Open Scope Z_scope.

(** ** Exceptions and the error monad *)

(** The two exception classes the script raises: [raise ValueError(msg)]
    in the splitter and [assert cond, msg] in the scenarios. *)
Inductive exception : Type :=
| ValueError (msg : string)
| AssertionError (msg : string).

Inductive result (A : Type) : Type :=
| Ok (a : A)
| Raise (e : exception).

Arguments Ok {A} a.
Arguments Raise {A} e.

Definition bind {A B : Type} (m : result A) (k : A -> result B) : result B :=
  match m with
  | Ok a => k a
  | Raise e => Raise e
  end.

Notation "x <- m ;; k" := (bind m (fun x => k))
  (at level 61, m at next level, right associativity).
Notation "' pat <- m ;; k" :=
  (bind m (fun x => match x with pat => k end))
  (at level 61, pat pattern, m at next level, right associativity).
Notation "m ;;; k" := (bind m (fun _ => k))
  (at level 61, right associativity).

(** [assert cond, msg] *)
Definition assert (cond : bool) (msg : string) : result unit :=
  if cond then Ok tt else Raise (AssertionError msg).

(** [for x in xs: body] over a state [S], stopping at the first raise. *)
Fixpoint for_each {X S : Type} (body : S -> X -> result S)
         (xs : list X) (st : S) : result S :=
  match xs with
  | [] => Ok st
  | x :: rest => st' <- body st x ;; for_each body rest st'
  end.

(** ** SplitConfig *)

Record SplitConfig : Type := mkSplitConfig {
  spending_percent : Z;
  savings_percent : Z;
  bills_percent : Z;
  insurance_percent : Z
}.

Definition validate (self : SplitConfig) : bool :=
  let total := spending_percent self + savings_percent self +
               bills_percent self + insurance_percent self in
  total =? 100.

(** ** AllocationResult *)

Record AllocationResult : Type := mkAllocationResult {
  total : Z;
  spending : Z;
  savings : Z;
  bills : Z;
  insurance : Z
}.

Definition sum_allocations (self : AllocationResult) : Z :=
  spending self + savings self + bills self + insurance self.

Definition is_consistent (self : AllocationResult) : bool :=
  sum_allocations self =? total self.

(** ** RemittanceSplitter *)

Record RemittanceSplitter : Type := mkRemittanceSplitter {
  config : SplitConfig
}.

(** [RemittanceSplitter.__init__] *)
Definition RemittanceSplitter_init (cfg : SplitConfig)
  : result RemittanceSplitter :=
  if negb (validate cfg)
  then Raise (ValueError "Split percentages must sum to 100")
  else Ok (mkRemittanceSplitter cfg).

Definition calculate_split (self : RemittanceSplitter) (total_amount : Z)
  : result AllocationResult :=
  if total_amount <=? 0
  then Raise (ValueError "Total amount must be positive")
  else
    let spending := (total_amount * spending_percent (config self)) / 100 in
    let savings := (total_amount * savings_percent (config self)) / 100 in
    let bills := (total_amount * bills_percent (config self)) / 100 in
    let insurance := total_amount - spending - savings - bills in
    Ok (mkAllocationResult total_amount spending savings bills insurance).

(** ** ContractTracker *)

Record ContractTracker : Type := mkContractTracker {
  savings_total : Z;
  bills_total : Z;
  insurance_total : Z;
  spending_total : Z
}.

(** [ContractTracker.__init__] *)
Definition ContractTracker_init : ContractTracker :=
  mkContractTracker 0 0 0 0.

Definition allocate (self : ContractTracker) (r : AllocationResult)
  : ContractTracker :=
  {| spending_total := spending_total self + spending r;
     savings_total := savings_total self + savings r;
     bills_total := bills_total self + bills r;
     insurance_total := insurance_total self + insurance r |}.

Definition get_total_allocated (self : ContractTracker) : Z :=
  spending_total self + savings_total self +
  bills_total self + insurance_total self.

Definition get_tracked_total (self : ContractTracker) : Z :=
  savings_total self + bills_total self + insurance_total self.

(** ** The scenarios *)

(** [str(n)] for an integer, as an f-string renders it. *)
Definition str (n : Z) : string := NilZero.string_of_int (Z.to_int n).

(** [range(n)] *)
Definition range (n : nat) : list Z := map Z.of_nat (seq 0 n).

(** The state the scenario loops carry: the tracker and [total_remitted]. *)
Definition loop_state : Type := (ContractTracker * Z)%type.

(** Loop body shared by the scenarios that do not check each result
    ([test_percentage_maintenance]):
    [result = splitter.calculate_split(amount); tracker.allocate(result);
     total_remitted += amount]. *)
Definition remit (splitter : RemittanceSplitter) (st : loop_state)
           (amount : Z) : result loop_state :=
  let '(tracker, total_remitted) := st in
  r <- calculate_split splitter amount ;;
  Ok (allocate tracker r, total_remitted + amount).

(** The same loop keeping only the tracker: every split result is handed
    to [allocate]. *)
Definition feed (splitter : RemittanceSplitter) (amounts : list Z)
           (tracker : ContractTracker) : result ContractTracker :=
  for_each (fun t amount => r <- calculate_split splitter amount ;;
                            Ok (allocate t r))
           amounts tracker.

(** The loop of [test_high_volume]: the amount is computed from the index
    and each result is asserted consistent. *)
Definition high_volume_body (splitter : RemittanceSplitter)
           (base_amount : Z) (st : loop_state) (i : Z) : result loop_state :=
  let '(tracker, total_remitted) := st in
  let amount := base_amount + (i * 1000000000) in
  r <- calculate_split splitter amount ;;
  let tracker := allocate tracker r in
  let total_remitted := total_remitted + amount in
  assert (is_consistent r)
         ("Remittance " ++ str (i + 1) ++ " must be consistent") ;;;
  Ok (tracker, total_remitted).

Definition high_volume_loop : result (SplitConfig * loop_state) :=
  let config := mkSplitConfig 40 30 20 10 in
  splitter <- RemittanceSplitter_init config ;;
  let tracker := ContractTracker_init in
  let num_remittances := 100%nat in
  let base_amount := 50000000000 in
  let total_remitted := 0 in
  st <- for_each (high_volume_body splitter base_amount)
                 (range num_remittances) (tracker, total_remitted) ;;
  Ok (config, st).

Definition test_high_volume : result bool :=
  '(config, (tracker, total_remitted)) <- high_volume_loop ;;
  let tracked_pct := savings_percent config + bills_percent config +
                     insurance_percent config in
  let expected_tracked := (total_remitted * tracked_pct) / 100 in
  let actual_tracked := get_tracked_total tracker in
  let tolerance := total_remitted / 10000 in
  let difference := Z.abs (actual_tracked - expected_tracked) in
  assert (get_total_allocated tracker =? total_remitted)
         "Total allocated must equal total remitted" ;;;
  assert (difference <=? tolerance)
         "Tracked allocations should match expected within tolerance" ;;;
  Ok true.

Definition percentage_remittances : list Z :=
  [100000000000; 200000000000; 150000000000].

Definition percentage_loop : result (SplitConfig * loop_state) :=
  let config := mkSplitConfig 40 30 20 10 in
  splitter <- RemittanceSplitter_init config ;;
  let tracker := ContractTracker_init in
  let total_remitted := 0 in
  st <- for_each (remit splitter) percentage_remittances
                 (tracker, total_remitted) ;;
  Ok (config, st).

Definition test_percentage_maintenance : result bool :=
  '(config, (tracker, total_remitted)) <- percentage_loop ;;
  let actual_spending_pct := (spending_total tracker * 100) / total_remitted in
  let actual_savings_pct := (savings_total tracker * 100) / total_remitted in
  let actual_bills_pct := (bills_total tracker * 100) / total_remitted in
  let actual_insurance_pct :=
    (insurance_total tracker * 100) / total_remitted in
  let tolerance := 1 in
  assert (Z.abs (actual_spending_pct - spending_percent config) <=? tolerance)
         "Spending percentage should be maintained" ;;;
  assert (Z.abs (actual_savings_pct - savings_percent config) <=? tolerance)
         "Savings percentage should be maintained" ;;;
  assert (Z.abs (actual_bills_pct - bills_percent config) <=? tolerance)
         "Bills percentage should be maintained" ;;;
  assert (Z.abs (actual_insurance_pct - insurance_percent config)
          <=? tolerance)
         "Insurance percentage should be maintained" ;;;
  Ok true.


(** ** Input predicates used by the statements *)

(** The four percentages of a configuration are non-negative. *)
Definition nonneg_percents (c : SplitConfig) : Prop :=
  0 <= spending_percent c /\ 0 <= savings_percent c /\
  0 <= bills_percent c /\ 0 <= insurance_percent c.

(** The four allocations of a result are non-negative. *)
Definition nonneg_allocations (r : AllocationResult) : Prop :=
  0 <= spending r /\ 0 <= savings r /\ 0 <= bills r /\ 0 <= insurance r.

(** [sum(amounts)] *)
Definition sum_amounts (amounts : list Z) : Z := fold_right Z.add 0 amounts.

(** Configurations used as concrete inputs. *)
Definition config_40_30_20_10 : SplitConfig := mkSplitConfig 40 30 20 10.
Definition config_25_25_25_25 : SplitConfig := mkSplitConfig 25 25 25 25.
Definition config_100_0_0_0 : SplitConfig := mkSplitConfig 100 0 0 0.
Definition config_negative : SplitConfig := mkSplitConfig 150 (-50) 0 0.

(** ** The remaining scenarios and [main]

    Console output is not modelled.  The three scenarios below are the
    bodies of the script's functions with the literals they start from
    (the configuration and the amounts) taken as arguments; the script's
    functions are these bodies at the script's literals. *)

(** [enumerate(xs, start)] *)
Fixpoint enumerate {X : Type} (xs : list X) (start : Z) : list (Z * X) :=
  match xs with
  | [] => []
  | x :: rest => (start, x) :: enumerate rest (start + 1)
  end.

(** Body of [test_single_remittance]. *)
Definition single_remittance (config : SplitConfig) (amount : Z)
  : result bool :=
  splitter <- RemittanceSplitter_init config ;;
  let tracker := ContractTracker_init in
  r <- calculate_split splitter amount ;;
  let tracker := allocate tracker r in
  assert (is_consistent r) "Allocations must sum to total" ;;;
  assert (get_total_allocated tracker =? amount)
         "Tracked total must match remittance" ;;;
  Ok true.

Definition test_single_remittance : result bool :=
  single_remittance (mkSplitConfig 40 30 20 10) 100000000000.

(** Loop body of [test_multiple_remittances], over
    [enumerate(remittances, 1)]. *)
Definition multiple_body (splitter : RemittanceSplitter) (st : loop_state)
           (item : Z * Z) : result loop_state :=
  let '(tracker, total_remitted) := st in
  let '(i, amount) := item in
  r <- calculate_split splitter amount ;;
  let tracker := allocate tracker r in
  let total_remitted := total_remitted + amount in
  assert (is_consistent r)
         ("Remittance " ++ str i ++ " allocations must sum to total") ;;;
  Ok (tracker, total_remitted).

(** Body of [test_multiple_remittances]. *)
Definition multiple_remittances (config : SplitConfig)
           (remittances : list Z) : result bool :=
  splitter <- RemittanceSplitter_init config ;;
  let tracker := ContractTracker_init in
  let total_remitted := 0 in
  '(tracker, total_remitted) <-
    for_each (multiple_body splitter) (enumerate remittances 1)
             (tracker, total_remitted) ;;
  assert (get_total_allocated tracker =? total_remitted)
         "Cumulative allocations must equal total remitted" ;;;
  Ok true.

Definition test_multiple_remittances : result bool :=
  multiple_remittances (mkSplitConfig 40 30 20 10)
    [50000000000; 100000000000; 75000000000; 150000000000; 30000000000].

(** Loop body of [test_rounding_edge_cases]; the state is [all_passed]. *)
Definition rounding_body (splitter : RemittanceSplitter) (all_passed : bool)
           (item : Z * string) : result bool :=
  let '(amount, description) := item in
  r <- calculate_split splitter amount ;;
  let is_consistent := is_consistent r in
  if negb is_consistent then Ok false else Ok all_passed.

(** Body of [test_rounding_edge_cases]. *)
Definition rounding_edge_cases (config : SplitConfig)
           (test_amounts : list (Z * string)) : result bool :=
  splitter <- RemittanceSplitter_init config ;;
  let all_passed := true in
  all_passed <- for_each (rounding_body splitter) test_amounts all_passed ;;
  assert all_passed "All edge cases must maintain consistency" ;;;
  Ok true.

Definition test_rounding_edge_cases : result bool :=
  rounding_edge_cases (mkSplitConfig 40 30 20 10)
    [(1, "Minimum amount"); (7, "Prime number"); (99, "Just under 100");
     (10000000000, "1,000 XLM"); (33330000000, "Doesn't divide evenly");
     (99999999999, "Large odd number")]%string.

(** One turn of the loop of [main]: a test that returns true is counted
    as passed, one that raises (either [except] clause) as failed, one
    that returns false as neither. *)
Definition main_body (st : Z * Z) (test : result bool) : Z * Z :=
  let '(passed, failed) := st in
  match test with
  | Ok b => if b then (passed + 1, failed) else (passed, failed)
  | Raise (AssertionError _) => (passed, failed + 1)
  | Raise (ValueError _) => (passed, failed + 1)
  end.

(** The loop of [main] from given counters, and [main] over a list of
    tests: the pair is [(passed, failed)], the exit code 0 or 1. *)
Definition run_tests (tests : list (result bool)) (st : Z * Z) : Z * Z :=
  fold_left main_body tests st.

Definition main_on (tests : list (result bool)) : Z :=
  let '(passed, failed) := run_tests tests (0, 0) in
  if failed =? 0 then 0 else 1.

Definition main : Z :=
  main_on [test_single_remittance; test_multiple_remittances;
           test_rounding_edge_cases; test_high_volume;
           test_percentage_maintenance].

(** ** Quantities used by the statements about runs *)

(** Sum over the calls of one truncated share,
    [sum((n * percent) // 100 for n in amounts)]. *)
Definition bucket_sum (percent : Z) (amounts : list Z) : Z :=
  sum_amounts (map (fun n => (n * percent) / 100) amounts).

(** [len(amounts)] *)
Definition len (amounts : list Z) : Z := Z.of_nat (List.length amounts).

(** A test outcome that is a raise, and one that is a returned true. *)
Definition raises (t : result bool) : bool :=
  match t with Ok _ => false | Raise _ => true end.

Definition returns_true (t : result bool) : bool :=
  match t with Ok b => b | Raise _ => false end.

Definition count (p : result bool -> bool) (tests : list (result bool)) : Z :=
  Z.of_nat (List.length (filter p tests)).

(** * Properties *)

(** ** Construction *)

Lemma validate_sum (c : SplitConfig) :
  validate c = true <->
  spending_percent c + savings_percent c +
  bills_percent c + insurance_percent c = 100.
Proof. unfold validate. cbv zeta. apply Z.eqb_eq. Qed.

Lemma init_ok (c : SplitConfig) :
  validate c = true ->
  RemittanceSplitter_init c = Ok (mkRemittanceSplitter c).
Proof. intros Hv. unfold RemittanceSplitter_init. now rewrite Hv. Qed.

Lemma init_raise (c : SplitConfig) :
  validate c = false ->
  RemittanceSplitter_init c =
  Raise (ValueError "Split percentages must sum to 100").
Proof. intros Hv. unfold RemittanceSplitter_init. now rewrite Hv. Qed.

Lemma init_config (c : SplitConfig) (s : RemittanceSplitter) :
  RemittanceSplitter_init c = Ok s -> config s = c /\ validate c = true.
Proof.
  unfold RemittanceSplitter_init.
  destruct (validate c); cbn; [|discriminate].
  intros [= <-]. now split.
Qed.

(** ** One call of [calculate_split] *)

Lemma calculate_split_pos (s : RemittanceSplitter) (n : Z) :
  0 < n ->
  calculate_split s n =
  Ok (mkAllocationResult n
        ((n * spending_percent (config s)) / 100)
        ((n * savings_percent (config s)) / 100)
        ((n * bills_percent (config s)) / 100)
        (n - (n * spending_percent (config s)) / 100
           - (n * savings_percent (config s)) / 100
           - (n * bills_percent (config s)) / 100)).
Proof.
  intros Hn. unfold calculate_split.
  destruct (Z.leb_spec n 0); [lia | reflexivity].
Qed.

Lemma calculate_split_nonpos (s : RemittanceSplitter) (n : Z) :
  n <= 0 ->
  calculate_split s n = Raise (ValueError "Total amount must be positive").
Proof.
  intros Hn. unfold calculate_split.
  destruct (Z.leb_spec n 0); [reflexivity | lia].
Qed.

(** Whatever the configuration, a returned result is conserving: insurance
    is defined as what the other three leave. *)
Lemma calculate_split_sum (s : RemittanceSplitter) (n : Z)
      (r : AllocationResult) :
  calculate_split s n = Ok r ->
  total r = n /\ sum_allocations r = n /\ 0 < n.
Proof.
  unfold calculate_split.
  destruct (Z.leb_spec n 0); [discriminate|].
  intros [= <-]. unfold sum_allocations. cbn. repeat split; lia.
Qed.

(** Floor division by 100, as a pair of linear inequalities. *)
Lemma floor100 (x : Z) : 100 * (x / 100) <= x < 100 * (x / 100) + 100.
Proof.
  pose proof (Z.div_mod x 100 ltac:(lia)).
  pose proof (Z.mod_pos_bound x 100 ltac:(lia)). lia.
Qed.

(** The residual bucket against its own floor share; needs only the sum of
    the percentages, not their signs. *)
Lemma residual_bound (a b c d n : Z) :
  a + b + c + d = 100 ->
  0 <= (n - (n * a) / 100 - (n * b) / 100 - (n * c) / 100) - (n * d) / 100
    <= 3.
Proof.
  intros Hsum.
  assert (Hn : n * a + n * b + n * c + n * d = 100 * n) by nia.
  pose proof (floor100 (n * a)). pose proof (floor100 (n * b)).
  pose proof (floor100 (n * c)). pose proof (floor100 (n * d)).
  lia.
Qed.

Lemma calculate_split_nonneg (s : RemittanceSplitter) (n : Z)
      (r : AllocationResult) :
  nonneg_percents (config s) -> validate (config s) = true ->
  calculate_split s n = Ok r ->
  nonneg_allocations r.
Proof.
  intros (Ha & Hb & Hc & Hd) Hv Hr.
  destruct (calculate_split_sum _ _ _ Hr) as (_ & _ & Hn).
  rewrite (calculate_split_pos s n Hn) in Hr. injection Hr as <-.
  apply validate_sum in Hv.
  pose proof (residual_bound _ _ _ _ n Hv) as Hres.
  unfold nonneg_allocations; cbn.
  repeat split; try (apply Z.div_pos; nia).
  assert (0 <= (n * insurance_percent (config s)) / 100)
    by (apply Z.div_pos; nia).
  lia.
Qed.

(** C1: for every configuration of four non-negative percentages summing
    to exactly 100 and every positive [total_amount], the splitter is
    constructed and [calculate_split] returns a result whose four
    allocations are non-negative and sum exactly to [total_amount]. *)
Theorem calculate_split_conservation (c : SplitConfig) (n : Z) :
  nonneg_percents c -> validate c = true -> 0 < n ->
  exists s r,
    RemittanceSplitter_init c = Ok s /\
    calculate_split s n = Ok r /\
    total r = n /\
    nonneg_allocations r /\
    spending r + savings r + bills r + insurance r = n.
Proof.
  intros Hnn Hv Hn.
  exists (mkRemittanceSplitter c). eexists.
  split; [now apply init_ok|].
  split; [now apply calculate_split_pos|].
  pose proof (calculate_split_pos (mkRemittanceSplitter c) n Hn) as Hr.
  split; [reflexivity|].
  split; [exact (calculate_split_nonneg (mkRemittanceSplitter c) _ _ Hnn Hv Hr)|].
  cbn. lia.
Qed.

Lemma calculate_split_conservation_witness :
  nonneg_percents config_40_30_20_10 /\
  validate config_40_30_20_10 = true /\
  0 < 7 /\
  exists s r,
    RemittanceSplitter_init config_40_30_20_10 = Ok s /\
    calculate_split s 7 = Ok r /\
    total r = 7 /\
    nonneg_allocations r /\
    spending r + savings r + bills r + insurance r = 7.
Proof.
  assert (H1 : nonneg_percents config_40_30_20_10)
    by (unfold nonneg_percents; cbn; lia).
  assert (H2 : validate config_40_30_20_10 = true) by reflexivity.
  assert (H3 : 0 < 7) by lia.
  refine (conj H1 (conj H2 (conj H3 _))).
  exact (calculate_split_conservation config_40_30_20_10 7 H1 H2 H3).
Defined.

(** ** Feeding a tracker *)

Lemma allocate_total (t : ContractTracker) (r : AllocationResult) :
  get_total_allocated (allocate t r) =
  get_total_allocated t + sum_allocations r.
Proof. unfold get_total_allocated, sum_allocations, allocate; cbn; lia. Qed.

(** The tracker invariant: at every point of the loop the four running
    totals add up to what they were plus the amounts fed in so far. *)
Lemma feed_total (s : RemittanceSplitter) (amounts : list Z) :
  Forall (fun n => 0 < n) amounts ->
  forall t, exists t',
    feed s amounts t = Ok t' /\
    get_total_allocated t' = get_total_allocated t + sum_amounts amounts.
Proof.
  induction 1 as [|n rest Hn _ IH]; intros t.
  - exists t. split; [reflexivity | cbn; lia].
  - destruct (IH (allocate t (mkAllocationResult n
        ((n * spending_percent (config s)) / 100)
        ((n * savings_percent (config s)) / 100)
        ((n * bills_percent (config s)) / 100)
        (n - (n * spending_percent (config s)) / 100
           - (n * savings_percent (config s)) / 100
           - (n * bills_percent (config s)) / 100)))) as (t' & Hfeed & Htot).
    exists t'. split.
    + unfold feed in *. cbn [for_each].
      rewrite (calculate_split_pos s n Hn). cbn [bind]. exact Hfeed.
    + rewrite Htot, allocate_total. unfold sum_allocations, sum_amounts.
      cbn [total spending savings bills insurance fold_right]. lia.
Qed.

(** C2: for every list of positive amounts and every valid configuration,
    handing each [calculate_split] result to a fresh tracker through
    [allocate] leaves [get_total_allocated] equal to the sum of the
    amounts. *)
Theorem cumulative_conservation (c : SplitConfig) (amounts : list Z) :
  nonneg_percents c -> validate c = true ->
  Forall (fun n => 0 < n) amounts ->
  exists s t,
    RemittanceSplitter_init c = Ok s /\
    feed s amounts ContractTracker_init = Ok t /\
    get_total_allocated t = sum_amounts amounts.
Proof.
  intros _ Hv Hpos.
  destruct (feed_total (mkRemittanceSplitter c) amounts Hpos
              ContractTracker_init) as (t & Hfeed & Htot).
  exists (mkRemittanceSplitter c), t.
  split; [now apply init_ok|]. split; [exact Hfeed|].
  rewrite Htot. reflexivity.
Qed.

Lemma cumulative_conservation_witness :
  nonneg_percents config_25_25_25_25 /\
  validate config_25_25_25_25 = true /\
  Forall (fun n => 0 < n) [1; 7; 99; 3] /\
  exists s t,
    RemittanceSplitter_init config_25_25_25_25 = Ok s /\
    feed s [1; 7; 99; 3] ContractTracker_init = Ok t /\
    get_total_allocated t = sum_amounts [1; 7; 99; 3].
Proof.
  assert (H1 : nonneg_percents config_25_25_25_25)
    by (unfold nonneg_percents; cbn; lia).
  assert (H2 : validate config_25_25_25_25 = true) by reflexivity.
  assert (H3 : Forall (fun n => 0 < n) [1; 7; 99; 3])
    by (repeat constructor).
  refine (conj H1 (conj H2 (conj H3 _))).
  exact (cumulative_conservation config_25_25_25_25 [1; 7; 99; 3] H1 H2 H3).
Defined.

(** C3: construction raises exactly when the four percentages do not sum
    to 100, and then it raises the script's configuration error, the
    [ValueError] with message [Split percentages must sum to 100]; every
    configuration summing to 100 is accepted, whatever its individual
    values. *)
Theorem construction_fails_iff (c : SplitConfig) :
  ((exists e, RemittanceSplitter_init c = Raise e) <->
   spending_percent c + savings_percent c +
   bills_percent c + insurance_percent c <> 100) /\
  (forall e, RemittanceSplitter_init c = Raise e ->
             e = ValueError "Split percentages must sum to 100") /\
  (RemittanceSplitter_init c = Ok (mkRemittanceSplitter c) <->
   spending_percent c + savings_percent c +
   bills_percent c + insurance_percent c = 100).
Proof.
  pose proof (validate_sum c) as Hv.
  destruct (validate c) eqn:E.
  - rewrite (init_ok c E). repeat split.
    + intros [e He]. discriminate.
    + intros Hne. exfalso. apply Hne. now apply Hv.
    + intros e He. discriminate.
    + intros _. now apply Hv.
  - rewrite (init_raise c E). repeat split.
    + intros _ Heq. apply Hv in Heq. discriminate.
    + intros _. eexists. reflexivity.
    + intros e [= <-]. reflexivity.
    + discriminate.
    + intros Heq. apply Hv in Heq. discriminate.
Qed.

Lemma construction_fails_iff_witness :
  (exists e, RemittanceSplitter_init (mkSplitConfig 40 30 20 9) = Raise e) /\
  (exists e, RemittanceSplitter_init (mkSplitConfig 40 30 20 11) = Raise e) /\
  RemittanceSplitter_init config_100_0_0_0 =
  Ok (mkRemittanceSplitter config_100_0_0_0).
Proof.
  split; [|split].
  - apply (proj1 (construction_fails_iff (mkSplitConfig 40 30 20 9))).
    cbn. lia.
  - apply (proj1 (construction_fails_iff (mkSplitConfig 40 30 20 11))).
    cbn. lia.
  - apply (proj2 (proj2 (construction_fails_iff config_100_0_0_0))).
    reflexivity.
Defined.

(** ** Amount validation *)

(** C4: for every valid configuration, [calculate_split] raises on a zero
    or negative amount (the script's invalid-amount error, the
    [ValueError] with message [Total amount must be positive]) and returns
    a conserving allocation on amount 1; under (40,30,20,10) that
    allocation is spending 0, savings 0, bills 0, insurance 1. *)
Theorem amount_validation (c : SplitConfig) :
  validate c = true ->
  exists s,
    RemittanceSplitter_init c = Ok s /\
    (forall n, n <= 0 ->
       calculate_split s n =
       Raise (ValueError "Total amount must be positive")) /\
    (exists r, calculate_split s 1 = Ok r /\
               total r = 1 /\
               sum_allocations r = 1 /\
               is_consistent r = true /\
               (nonneg_percents c -> nonneg_allocations r)) /\
    (exists s0,
       RemittanceSplitter_init config_40_30_20_10 = Ok s0 /\
       calculate_split s0 1 = Ok (mkAllocationResult 1 0 0 0 1)).
Proof.
  intros Hv. exists (mkRemittanceSplitter c).
  split; [now apply init_ok|].
  split; [intros n Hn; now apply calculate_split_nonpos|].
  split.
  - pose proof (calculate_split_pos (mkRemittanceSplitter c) 1 ltac:(lia))
      as Hr.
    eexists. split; [exact Hr|].
    destruct (calculate_split_sum _ _ _ Hr) as (Ht & Hs & _).
    split; [exact Ht|]. split; [exact Hs|]. split.
    + unfold is_consistent. rewrite Hs, Ht. reflexivity.
    + intros Hnn.
      exact (calculate_split_nonneg (mkRemittanceSplitter c) _ _ Hnn Hv Hr).
  - exists (mkRemittanceSplitter config_40_30_20_10).
    split; reflexivity.
Qed.

Lemma amount_validation_witness :
  validate config_25_25_25_25 = true /\
  exists s,
    RemittanceSplitter_init config_25_25_25_25 = Ok s /\
    (forall n, n <= 0 ->
       calculate_split s n =
       Raise (ValueError "Total amount must be positive")) /\
    (exists r, calculate_split s 1 = Ok r /\
               total r = 1 /\
               sum_allocations r = 1 /\
               is_consistent r = true /\
               (nonneg_percents config_25_25_25_25 ->
                nonneg_allocations r)) /\
    (exists s0,
       RemittanceSplitter_init config_40_30_20_10 = Ok s0 /\
       calculate_split s0 1 = Ok (mkAllocationResult 1 0 0 0 1)).
Proof.
  assert (H1 : validate config_25_25_25_25 = true) by reflexivity.
  exact (conj H1 (amount_validation config_25_25_25_25 H1)).
Defined.

(** ** The residual bucket *)

(** C5: for every configuration of non-negative percentages summing to 100
    and every positive [n], the insurance allocation of [calculate_split]
    exceeds [floor(n * insurance_percent / 100)] by at least 0 and at
    most 3. *)
Theorem insurance_residual_bound (c : SplitConfig) (n : Z) :
  nonneg_percents c -> validate c = true -> 0 < n ->
  exists s r,
    RemittanceSplitter_init c = Ok s /\
    calculate_split s n = Ok r /\
    0 <= insurance r - (n * insurance_percent c) / 100 <= 3.
Proof.
  intros _ Hv Hn.
  exists (mkRemittanceSplitter c). eexists.
  split; [now apply init_ok|].
  split; [now apply calculate_split_pos|].
  cbn [insurance config].
  apply residual_bound. now apply validate_sum.
Qed.

Lemma insurance_residual_bound_witness :
  nonneg_percents config_25_25_25_25 /\
  validate config_25_25_25_25 = true /\
  0 < 3 /\
  exists s r,
    RemittanceSplitter_init config_25_25_25_25 = Ok s /\
    calculate_split s 3 = Ok r /\
    0 <= insurance r - (3 * insurance_percent config_25_25_25_25) / 100 <= 3.
Proof.
  assert (H1 : nonneg_percents config_25_25_25_25)
    by (unfold nonneg_percents; cbn; lia).
  assert (H2 : validate config_25_25_25_25 = true) by reflexivity.
  assert (H3 : 0 < 3) by lia.
  refine (conj H1 (conj H2 (conj H3 _))).
  exact (insurance_residual_bound config_25_25_25_25 3 H1 H2 H3).
Defined.

(** The bound 3 is reached: with four quarters and amount 3 the three
    truncated buckets get nothing and insurance gets all 3, its own floor
    share being 0. *)
Example residual_of_three :
  calculate_split (mkRemittanceSplitter config_25_25_25_25) 3 =
  Ok (mkAllocationResult 3 0 0 0 3) /\
  (3 * insurance_percent config_25_25_25_25) / 100 = 0.
Proof. split; reflexivity. Qed.

(** ** Monotonicity of the tracker *)

(** C6, as the code has it: [allocate] performs no check on the result it
    is given, so each of the four running totals is non-decreasing across
    an [allocate] call whenever the four allocations of the result are
    non-negative. *)
Theorem allocate_monotone (t : ContractTracker) (r : AllocationResult) :
  nonneg_allocations r ->
  spending_total t <= spending_total (allocate t r) /\
  savings_total t <= savings_total (allocate t r) /\
  bills_total t <= bills_total (allocate t r) /\
  insurance_total t <= insurance_total (allocate t r).
Proof.
  intros (Ha & Hb & Hc & Hd). cbn. lia.
Qed.

Lemma allocate_monotone_witness :
  nonneg_allocations (mkAllocationResult 7 2 2 1 2) /\
  spending_total ContractTracker_init <=
    spending_total
      (allocate ContractTracker_init (mkAllocationResult 7 2 2 1 2)) /\
  savings_total ContractTracker_init <=
    savings_total
      (allocate ContractTracker_init (mkAllocationResult 7 2 2 1 2)) /\
  bills_total ContractTracker_init <=
    bills_total
      (allocate ContractTracker_init (mkAllocationResult 7 2 2 1 2)) /\
  insurance_total ContractTracker_init <=
    insurance_total
      (allocate ContractTracker_init (mkAllocationResult 7 2 2 1 2)).
Proof.
  assert (H1 : nonneg_allocations (mkAllocationResult 7 2 2 1 2))
    by (unfold nonneg_allocations; cbn; lia).
  exact (conj H1 (allocate_monotone ContractTracker_init
                    (mkAllocationResult 7 2 2 1 2) H1)).
Defined.

(** C6 as stated fails: the accepted configuration (150,-50,0,0) splits
    100 into a result whose savings allocation is -50, and allocating it
    to a fresh tracker lowers [savings_total] from 0 to -50. *)
Lemma allocate_not_monotone :
  RemittanceSplitter_init config_negative =
    Ok (mkRemittanceSplitter config_negative) /\
  calculate_split (mkRemittanceSplitter config_negative) 100 =
    Ok (mkAllocationResult 100 150 (-50) 0 0) /\
  savings_total
    (allocate ContractTracker_init (mkAllocationResult 100 150 (-50) 0 0))
  < savings_total ContractTracker_init /\
  ~ (forall (t : ContractTracker) (r : AllocationResult),
       spending_total t <= spending_total (allocate t r) /\
       savings_total t <= savings_total (allocate t r) /\
       bills_total t <= bills_total (allocate t r) /\
       insurance_total t <= insurance_total (allocate t r)).
Proof.
  split; [reflexivity|]. split; [reflexivity|]. split; [reflexivity|].
  intros H.
  destruct (H ContractTracker_init (mkAllocationResult 100 150 (-50) 0 0))
    as (_ & Hs & _).
  cbn in Hs. lia.
Qed.

(** ** The two scenarios *)

(** C7: in the high-volume scenario (100 calls, amounts
    50000000000 + i * 1000000000 for i = 0..99, configuration
    (40,30,20,10)) every call returns, and the tracked total is within
    [total_remitted // 10000] of [(total_remitted * 60) // 100]; the
    scenario's own assertions pass. *)
Theorem high_volume_tracked_tolerance :
  exists tracker total_remitted,
    high_volume_loop =
      Ok (mkSplitConfig 40 30 20 10, (tracker, total_remitted)) /\
    feed (mkRemittanceSplitter (mkSplitConfig 40 30 20 10))
         (map (fun i => 50000000000 + i * 1000000000) (range 100))
         ContractTracker_init = Ok tracker /\
    total_remitted =
      sum_amounts (map (fun i => 50000000000 + i * 1000000000) (range 100)) /\
    Z.abs (get_tracked_total tracker - (total_remitted * 60) / 100)
      <= total_remitted / 10000 /\
    test_high_volume = Ok true.
Proof.
  eexists. eexists.
  split; [vm_compute; reflexivity|].
  split; [vm_compute; reflexivity|].
  split; [vm_compute; reflexivity|].
  split; [vm_compute; discriminate|].
  vm_compute; reflexivity.
Qed.

(** C8: in the percentage scenario (amounts 100000000000, 200000000000,
    150000000000, configuration (40,30,20,10)) every bucket's realised
    percentage [(bucket_total * 100) // total_remitted] is within 1 of its
    configured percentage; the scenario's own assertions pass. *)
Theorem percentage_maintenance_tolerance :
  exists tracker total_remitted,
    percentage_loop =
      Ok (mkSplitConfig 40 30 20 10, (tracker, total_remitted)) /\
    feed (mkRemittanceSplitter (mkSplitConfig 40 30 20 10))
         [100000000000; 200000000000; 150000000000]
         ContractTracker_init = Ok tracker /\
    total_remitted = 100000000000 + 200000000000 + 150000000000 /\
    Z.abs ((spending_total tracker * 100) / total_remitted - 40) <= 1 /\
    Z.abs ((savings_total tracker * 100) / total_remitted - 30) <= 1 /\
    Z.abs ((bills_total tracker * 100) / total_remitted - 20) <= 1 /\
    Z.abs ((insurance_total tracker * 100) / total_remitted - 10) <= 1 /\
    test_percentage_maintenance = Ok true.
Proof.
  eexists. eexists.
  split; [vm_compute; reflexivity|].
  split; [vm_compute; reflexivity|].
  split; [vm_compute; reflexivity|].
  repeat (split; [vm_compute; discriminate|]).
  vm_compute; reflexivity.
Qed.

(** ** What construction does not check *)

(** C9: construction checks the sum of the percentages only.  The
    configuration (150,-50,0,0) contains a negative percentage, is
    accepted, and on the positive amount 100 [calculate_split] returns a
    result whose savings allocation is negative. *)
Theorem negative_percentage_accepted :
  savings_percent config_negative < 0 /\
  validate config_negative = true /\
  exists s r,
    RemittanceSplitter_init config_negative = Ok s /\
    0 < 100 /\
    calculate_split s 100 = Ok r /\
    r = mkAllocationResult 100 150 (-50) 0 0 /\
    savings r < 0.
Proof.
  split; [reflexivity|]. split; [reflexivity|].
  exists (mkRemittanceSplitter config_negative).
  exists (mkAllocationResult 100 150 (-50) 0 0).
  repeat split.
Qed.

(** C10: the two failures carry the same exception class.  Construction
    from percentages that do not sum to 100 and [calculate_split] on a
    non-positive amount both raise [ValueError]; only the messages
    differ. *)
Theorem failures_share_exception_class
        (c : SplitConfig) (s : RemittanceSplitter) (n : Z) :
  spending_percent c + savings_percent c +
  bills_percent c + insurance_percent c <> 100 ->
  n <= 0 ->
  exists m1 m2,
    RemittanceSplitter_init c = Raise (ValueError m1) /\
    calculate_split s n = Raise (ValueError m2) /\
    m1 <> m2.
Proof.
  intros Hsum Hn.
  exists "Split percentages must sum to 100"%string,
         "Total amount must be positive"%string.
  split.
  - apply init_raise. destruct (validate c) eqn:E; [|reflexivity].
    apply validate_sum in E. contradiction.
  - split; [now apply calculate_split_nonpos | discriminate].
Qed.

Lemma failures_share_exception_class_witness :
  exists m1 m2,
    RemittanceSplitter_init (mkSplitConfig 40 30 20 9) =
      Raise (ValueError m1) /\
    calculate_split (mkRemittanceSplitter config_40_30_20_10) 0 =
      Raise (ValueError m2) /\
    m1 <> m2.
Proof.
  apply (failures_share_exception_class (mkSplitConfig 40 30 20 9)
           (mkRemittanceSplitter config_40_30_20_10) 0).
  - cbn. lia.
  - lia.
Defined.


(** * Further properties of the script *)

(** ** One call, whatever the configuration *)

(** X1: [calculate_split] returns exactly on positive amounts, for any
    splitter, and what it returns passes [is_consistent] and carries the
    amount as its total; on any other amount it raises the [ValueError]
    of the amount guard. *)
Theorem calculate_split_returns_iff (s : RemittanceSplitter) (n : Z) :
  ((exists r, calculate_split s n = Ok r) <-> 0 < n) /\
  (forall r, calculate_split s n = Ok r ->
             is_consistent r = true /\ total r = n) /\
  (forall e, calculate_split s n = Raise e ->
             n <= 0 /\ e = ValueError "Total amount must be positive").
Proof.
  split; [split|split].
  - intros [r Hr]. now destruct (calculate_split_sum _ _ _ Hr) as (_ & _ & ?).
  - intros Hn. eexists. now apply calculate_split_pos.
  - intros r Hr. destruct (calculate_split_sum _ _ _ Hr) as (Ht & Hs & _).
    unfold is_consistent. rewrite Hs, Ht. split; [apply Z.eqb_refl | easy].
  - intros e He. destruct (Z.le_gt_cases n 0) as [Hn | Hn].
    + rewrite (calculate_split_nonpos s n Hn) in He.
      injection He as <-. now split.
    + rewrite (calculate_split_pos s n Hn) in He. discriminate.
Qed.

Lemma calculate_split_returns_iff_witness :
  (exists r,
     calculate_split (mkRemittanceSplitter config_negative) 7 = Ok r) /\
  is_consistent (mkAllocationResult 7 10 (-4) 0 1) = true /\
  total (mkAllocationResult 7 10 (-4) 0 1) = 7.
Proof.
  split.
  - apply (proj1 (calculate_split_returns_iff
                    (mkRemittanceSplitter config_negative) 7)).
    lia.
  - apply (proj1 (proj2 (calculate_split_returns_iff
                           (mkRemittanceSplitter config_negative) 7))).
    reflexivity.
Defined.

(** X2: On a positive multiple of 100 nothing is truncated: under a
    configuration summing to 100 every bucket, insurance included, gets
    exactly its percentage of the amount. *)
Theorem calculate_split_exact_on_hundreds (c : SplitConfig) (k : Z) :
  validate c = true -> 0 < k ->
  calculate_split (mkRemittanceSplitter c) (100 * k) =
  Ok (mkAllocationResult (100 * k)
        (k * spending_percent c) (k * savings_percent c)
        (k * bills_percent c) (k * insurance_percent c)).
Proof.
  intros Hv Hk. apply validate_sum in Hv.
  rewrite calculate_split_pos by lia. cbn [config].
  assert (Hdiv : forall p, (100 * k * p) / 100 = k * p).
  { intros p. replace (100 * k * p) with (k * p * 100) by ring.
    apply Z.div_mul. lia. }
  rewrite !Hdiv.
  assert (Hk4 : k * spending_percent c + k * savings_percent c +
                k * bills_percent c + k * insurance_percent c = 100 * k)
    by (rewrite <- !Z.mul_add_distr_l, Hv; ring).
  do 2 f_equal. lia.
Qed.

Lemma calculate_split_exact_on_hundreds_witness :
  calculate_split (mkRemittanceSplitter config_25_25_25_25) (100 * 3) =
  Ok (mkAllocationResult (100 * 3)
        (3 * spending_percent config_25_25_25_25)
        (3 * savings_percent config_25_25_25_25)
        (3 * bills_percent config_25_25_25_25)
        (3 * insurance_percent config_25_25_25_25)).
Proof.
  apply (calculate_split_exact_on_hundreds config_25_25_25_25 3).
  - reflexivity.
  - lia.
Defined.

(** X3: Against the exact shares [n * percent / 100]: each truncated bucket
    is short of its share by less than one unit, and insurance exceeds its
    share by less than three units.  Only the sum of the percentages
    matters, not their signs. *)
Theorem calculate_split_share_error (s : RemittanceSplitter) (n : Z)
        (r : AllocationResult) :
  validate (config s) = true ->
  calculate_split s n = Ok r ->
  0 <= n * spending_percent (config s) - 100 * spending r <= 99 /\
  0 <= n * savings_percent (config s) - 100 * savings r <= 99 /\
  0 <= n * bills_percent (config s) - 100 * bills r <= 99 /\
  0 <= 100 * insurance r - n * insurance_percent (config s) <= 297.
Proof.
  intros Hv Hr. apply validate_sum in Hv.
  destruct (calculate_split_sum _ _ _ Hr) as (_ & _ & Hn).
  rewrite (calculate_split_pos s n Hn) in Hr. injection Hr as <-.
  cbn [spending savings bills insurance].
  pose proof (floor100 (n * spending_percent (config s))).
  pose proof (floor100 (n * savings_percent (config s))).
  pose proof (floor100 (n * bills_percent (config s))).
  assert (n * spending_percent (config s) + n * savings_percent (config s) +
          n * bills_percent (config s) + n * insurance_percent (config s)
          = 100 * n) by nia.
  lia.
Qed.

Lemma calculate_split_share_error_witness :
  0 <= 7 * spending_percent config_negative - 100 * 10 <= 99 /\
  0 <= 7 * savings_percent config_negative - 100 * (-4) <= 99 /\
  0 <= 7 * bills_percent config_negative - 100 * 0 <= 99 /\
  0 <= 100 * 1 - 7 * insurance_percent config_negative <= 297.
Proof.
  apply (calculate_split_share_error (mkRemittanceSplitter config_negative) 7
           (mkAllocationResult 7 10 (-4) 0 1)).
  - reflexivity.
  - reflexivity.
Defined.

(** ** Runs of the split-and-allocate loop *)

Lemma feed_cons (s : RemittanceSplitter) (n : Z) (rest : list Z)
      (t : ContractTracker) :
  feed s (n :: rest) t =
  (r <- calculate_split s n ;; feed s rest (allocate t r)).
Proof.
  unfold feed. cbn [for_each].
  destruct (calculate_split s n); reflexivity.
Qed.

Lemma tracker_eq (t u : ContractTracker) :
  savings_total t = savings_total u -> bills_total t = bills_total u ->
  insurance_total t = insurance_total u ->
  spending_total t = spending_total u -> t = u.
Proof. destruct t, u; cbn; intros; subst; reflexivity. Qed.

(** What a run leaves in the tracker: each truncated bucket has grown by
    the sum of its per-call floors, insurance by the rest of the amounts. *)
Lemma feed_closed_form (s : RemittanceSplitter) (amounts : list Z) :
  Forall (fun n => 0 < n) amounts ->
  forall t,
    feed s amounts t =
    Ok {| spending_total :=
            spending_total t + bucket_sum (spending_percent (config s)) amounts;
          savings_total :=
            savings_total t + bucket_sum (savings_percent (config s)) amounts;
          bills_total :=
            bills_total t + bucket_sum (bills_percent (config s)) amounts;
          insurance_total :=
            insurance_total t +
            (sum_amounts amounts
             - bucket_sum (spending_percent (config s)) amounts
             - bucket_sum (savings_percent (config s)) amounts
             - bucket_sum (bills_percent (config s)) amounts) |}.
Proof.
  induction 1 as [|n rest Hn _ IH]; intros t.
  - cbn. f_equal. apply tracker_eq; cbn; lia.
  - rewrite feed_cons, (calculate_split_pos s n Hn). cbn [bind].
    rewrite IH. f_equal.
    apply tracker_eq; unfold bucket_sum, sum_amounts; cbn; lia.
Qed.

(** A truncated bucket over a whole run, against its exact share of the
    sum: short by at most 99 hundredths of a unit per call. *)
Lemma bucket_sum_bounds (p : Z) (amounts : list Z) :
  0 <= p * sum_amounts amounts - 100 * bucket_sum p amounts
    <= 99 * len amounts.
Proof.
  unfold bucket_sum, len.
  induction amounts as [|n rest IH]; [cbn; lia|].
  cbn [map sum_amounts fold_right List.length].
  fold (sum_amounts rest).
  fold (sum_amounts (map (fun n => n * p / 100) rest)).
  pose proof (floor100 (n * p)).
  rewrite Nat2Z.inj_succ. nia.
Qed.

Lemma bucket_sum_nonneg (p : Z) (amounts : list Z) :
  0 <= p -> Forall (fun n => 0 < n) amounts -> 0 <= bucket_sum p amounts.
Proof.
  intros Hp. unfold bucket_sum.
  induction 1 as [|n rest Hn _ IH]; [cbn; lia|].
  cbn [map sum_amounts fold_right].
  fold (sum_amounts (map (fun n => n * p / 100) rest)).
  assert (0 <= n * p / 100) by (apply Z.div_pos; nia). lia.
Qed.

Lemma sum_amounts_lower (b : Z) (amounts : list Z) :
  Forall (fun n => b <= n) amounts -> b * len amounts <= sum_amounts amounts.
Proof.
  unfold len. induction 1 as [|n rest Hn _ IH]; [cbn; lia|].
  cbn [sum_amounts fold_right List.length]. fold (sum_amounts rest).
  rewrite Nat2Z.inj_succ. lia.
Qed.

(** The residual bucket over a whole run, against its exact share. *)
Lemma insurance_run_bounds (a b c d : Z) (amounts : list Z) :
  a + b + c + d = 100 ->
  0 <= 100 * (sum_amounts amounts - bucket_sum a amounts
              - bucket_sum b amounts - bucket_sum c amounts)
       - d * sum_amounts amounts
    <= 297 * len amounts.
Proof.
  intros Hsum.
  pose proof (bucket_sum_bounds a amounts).
  pose proof (bucket_sum_bounds b amounts).
  pose proof (bucket_sum_bounds c amounts).
  assert (a * sum_amounts amounts + b * sum_amounts amounts +
          c * sum_amounts amounts + d * sum_amounts amounts
          = 100 * sum_amounts amounts)
    by (rewrite <- !Z.mul_add_distr_r, Hsum; ring).
  lia.
Qed.

Lemma feed_ok_positive (s : RemittanceSplitter) (amounts : list Z) :
  forall t t', feed s amounts t = Ok t' -> Forall (fun n => 0 < n) amounts.
Proof.
  induction amounts as [|n rest IH]; intros t t' Hfeed; [constructor|].
  rewrite feed_cons in Hfeed.
  destruct (calculate_split s n) as [r|e] eqn:Hr; [|discriminate].
  destruct (calculate_split_sum _ _ _ Hr) as (_ & _ & Hn).
  constructor; [exact Hn | exact (IH _ _ Hfeed)].
Qed.

Lemma Forall_positive (b : Z) (amounts : list Z) :
  0 < b -> Forall (fun n => b <= n) amounts ->
  Forall (fun n => 0 < n) amounts.
Proof. intros Hb H. eapply Forall_impl; [|exact H]. cbn. intros; lia. Qed.

(** X4: A run returns exactly when every amount is positive; otherwise it
    raises the [ValueError] of the amount guard, wherever in the list the
    offending amount stands. *)
Theorem feed_returns_iff (s : RemittanceSplitter) (amounts : list Z)
        (t : ContractTracker) :
  ((exists t', feed s amounts t = Ok t') <->
   Forall (fun n => 0 < n) amounts) /\
  (forall e, feed s amounts t = Raise e ->
             e = ValueError "Total amount must be positive").
Proof.
  revert t. induction amounts as [|n rest IH]; intros t.
  - split; [split|].
    + intros _. constructor.
    + intros _. exists t. reflexivity.
    + discriminate.
  - rewrite feed_cons. destruct (Z.le_gt_cases n 0) as [Hn | Hn].
    + rewrite (calculate_split_nonpos s n Hn). cbn [bind].
      split; [split|].
      * intros [t' Ht']. discriminate.
      * intros Hall. inversion Hall; subst. lia.
      * intros e [= <-]. reflexivity.
    + rewrite (calculate_split_pos s n Hn). cbn [bind].
      match goal with |- context [feed s rest ?u] =>
        destruct (IH u) as [[IH1 IH2] IH3] end.
      split; [split|].
      * intros Hex. constructor; [exact Hn | now apply IH1].
      * intros Hall. inversion Hall; subst. now apply IH2.
      * exact IH3.
Qed.

Lemma feed_returns_iff_witness :
  (exists t',
     feed (mkRemittanceSplitter config_40_30_20_10) [7; 99]
          ContractTracker_init = Ok t') /\
  ValueError "Total amount must be positive" =
  ValueError "Total amount must be positive".
Proof.
  split.
  - apply (proj1 (feed_returns_iff
                    (mkRemittanceSplitter config_40_30_20_10) [7; 99]
                    ContractTracker_init)).
    repeat (apply Forall_cons; [lia|]). apply Forall_nil.
  - symmetry.
    apply (proj2 (feed_returns_iff
                    (mkRemittanceSplitter config_40_30_20_10) [7; 0; 99]
                    ContractTracker_init)).
    reflexivity.
Defined.

Lemma allocate_comm (t : ContractTracker) (r1 r2 : AllocationResult) :
  allocate (allocate t r1) r2 = allocate (allocate t r2) r1.
Proof. apply tracker_eq; cbn; lia. Qed.

(** X5: The outcome of a run does not depend on the order of the amounts:
    two lists that are permutations of each other leave the same tracker,
    or raise the same exception. *)
Theorem feed_permutation (s : RemittanceSplitter) (xs ys : list Z) :
  Permutation xs ys ->
  forall t, feed s xs t = feed s ys t.
Proof.
  induction 1 as [| x l l' _ IH | x y l | l l' l'' _ IH1 _ IH2]; intros t.
  - reflexivity.
  - rewrite !feed_cons. destruct (calculate_split s x); cbn [bind];
      [apply IH | reflexivity].
  - rewrite !feed_cons.
    destruct (Z.le_gt_cases x 0) as [Hx | Hx];
      destruct (Z.le_gt_cases y 0) as [Hy | Hy];
      repeat first
        [ rewrite (calculate_split_nonpos s x Hx)
        | rewrite (calculate_split_nonpos s y Hy)
        | rewrite (calculate_split_pos s x Hx)
        | rewrite (calculate_split_pos s y Hy) ];
      cbn [bind]; rewrite ?feed_cons;
      repeat first
        [ rewrite (calculate_split_nonpos s x Hx)
        | rewrite (calculate_split_nonpos s y Hy)
        | rewrite (calculate_split_pos s x Hx)
        | rewrite (calculate_split_pos s y Hy) ];
      cbn [bind]; try reflexivity.
    now rewrite allocate_comm.
  - now rewrite IH1, IH2.
Qed.

Lemma feed_permutation_witness :
  feed (mkRemittanceSplitter config_40_30_20_10) [7; 99; 1]
       ContractTracker_init =
  feed (mkRemittanceSplitter config_40_30_20_10) [1; 7; 99]
       ContractTracker_init.
Proof.
  apply (feed_permutation (mkRemittanceSplitter config_40_30_20_10)
           [7; 99; 1] [1; 7; 99]).
  apply Permutation_sym.
  apply (Permutation_cons_app [7; 99] [] 1).
  apply Permutation_refl.
Defined.

(** X6: Cumulative per-bucket drift.  After a run over positive amounts from a
    fresh tracker, under percentages summing to 100: each truncated
    bucket is below its exact share of the amounts by at most 0.99 units
    per call, and insurance above its exact share by at most 2.97 units
    per call. *)
Theorem feed_bucket_drift (s : RemittanceSplitter) (amounts : list Z) :
  validate (config s) = true ->
  Forall (fun n => 0 < n) amounts ->
  exists t,
    feed s amounts ContractTracker_init = Ok t /\
    0 <= spending_percent (config s) * sum_amounts amounts
         - 100 * spending_total t <= 99 * len amounts /\
    0 <= savings_percent (config s) * sum_amounts amounts
         - 100 * savings_total t <= 99 * len amounts /\
    0 <= bills_percent (config s) * sum_amounts amounts
         - 100 * bills_total t <= 99 * len amounts /\
    0 <= 100 * insurance_total t
         - insurance_percent (config s) * sum_amounts amounts
      <= 297 * len amounts.
Proof.
  intros Hv Hpos. apply validate_sum in Hv.
  eexists. split; [apply (feed_closed_form s amounts Hpos)|].
  cbn [spending_total savings_total bills_total insurance_total
       ContractTracker_init].
  pose proof (bucket_sum_bounds (spending_percent (config s)) amounts).
  pose proof (bucket_sum_bounds (savings_percent (config s)) amounts).
  pose proof (bucket_sum_bounds (bills_percent (config s)) amounts).
  pose proof (insurance_run_bounds _ _ _ _ amounts Hv).
  lia.
Qed.

Lemma feed_bucket_drift_witness :
  exists t,
    feed (mkRemittanceSplitter config_25_25_25_25) [3; 7]
         ContractTracker_init = Ok t /\
    0 <= spending_percent config_25_25_25_25 * sum_amounts [3; 7]
         - 100 * spending_total t <= 99 * len [3; 7] /\
    0 <= savings_percent config_25_25_25_25 * sum_amounts [3; 7]
         - 100 * savings_total t <= 99 * len [3; 7] /\
    0 <= bills_percent config_25_25_25_25 * sum_amounts [3; 7]
         - 100 * bills_total t <= 99 * len [3; 7] /\
    0 <= 100 * insurance_total t
         - insurance_percent config_25_25_25_25 * sum_amounts [3; 7]
      <= 297 * len [3; 7].
Proof.
  apply (feed_bucket_drift (mkRemittanceSplitter config_25_25_25_25) [3; 7]).
  - reflexivity.
  - repeat (apply Forall_cons; [lia|]). apply Forall_nil.
Defined.

(** X7: The tolerance check of [test_high_volume] holds for every run, not
    only the scripted one: under percentages summing to 100, when every
    amount is at least 10000, the tracked total is within
    [total_remitted // 10000] of
    [(total_remitted * tracked_pct) // 100]. *)
Theorem tracked_total_within_tolerance (s : RemittanceSplitter)
        (amounts : list Z) :
  validate (config s) = true ->
  Forall (fun n => 10000 <= n) amounts ->
  exists t,
    feed s amounts ContractTracker_init = Ok t /\
    Z.abs (get_tracked_total t
           - (sum_amounts amounts *
              (savings_percent (config s) + bills_percent (config s) +
               insurance_percent (config s))) / 100)
    <= sum_amounts amounts / 10000.
Proof.
  intros Hv Hbig.
  pose proof (Forall_positive 10000 amounts ltac:(lia) Hbig) as Hpos.
  pose proof (sum_amounts_lower 10000 amounts Hbig) as Hlow.
  apply validate_sum in Hv.
  eexists. split; [apply (feed_closed_form s amounts Hpos)|].
  unfold get_tracked_total.
  cbn [spending_total savings_total bills_total insurance_total
       ContractTracker_init].
  pose proof (bucket_sum_bounds (spending_percent (config s)) amounts) as Ha.
  set (S := sum_amounts amounts) in *.
  set (A := bucket_sum (spending_percent (config s)) amounts) in *.
  set (B := bucket_sum (savings_percent (config s)) amounts).
  set (C := bucket_sum (bills_percent (config s)) amounts).
  set (pct := savings_percent (config s) + bills_percent (config s) +
              insurance_percent (config s)).
  assert (Hpct : S * pct = 100 * S - spending_percent (config s) * S)
    by (unfold pct; nia).
  pose proof (floor100 (S * pct)) as HE.
  pose proof (Z.div_mod S 10000 ltac:(lia)) as HT.
  pose proof (Z.mod_pos_bound S 10000 ltac:(lia)) as HT'.
  assert (0 <= len amounts) by (unfold len; lia).
  lia.
Qed.

Lemma tracked_total_within_tolerance_witness :
  exists t,
    feed (mkRemittanceSplitter config_25_25_25_25) [10001; 10003; 123457]
         ContractTracker_init = Ok t /\
    Z.abs (get_tracked_total t
           - (sum_amounts [10001; 10003; 123457] *
              (savings_percent config_25_25_25_25 +
               bills_percent config_25_25_25_25 +
               insurance_percent config_25_25_25_25)) / 100)
    <= sum_amounts [10001; 10003; 123457] / 10000.
Proof.
  apply (tracked_total_within_tolerance
           (mkRemittanceSplitter config_25_25_25_25)
           [10001; 10003; 123457]).
  - reflexivity.
  - repeat (apply Forall_cons; [lia|]). apply Forall_nil.
Defined.

(** The hypothesis on the size of the amounts is needed: on the single
    amount 1 with four quarters the tracked total is 1, the expected one
    0 and the tolerance 0. *)
Example tolerance_needs_large_amounts :
  exists t,
    feed (mkRemittanceSplitter config_25_25_25_25) [1]
         ContractTracker_init = Ok t /\
    get_tracked_total t = 1 /\
    (sum_amounts [1] * 75) / 100 = 0 /\
    sum_amounts [1] / 10000 = 0.
Proof. eexists. repeat split. Qed.

(** Integer percentage of a bucket total, bracketed by the bounds on one
    hundred times that total. *)
Lemma realised_percentage (x S p lo hi : Z) :
  0 < S -> lo <= S -> hi < 2 * S ->
  p * S - lo <= x <= p * S + hi ->
  Z.abs (x / S - p) <= 1.
Proof.
  intros HS Hlo Hhi [Hx1 Hx2].
  assert (p - 1 <= x / S) by (apply Z.div_le_lower_bound; nia).
  assert (x / S < p + 2) by (apply Z.div_lt_upper_bound; nia).
  lia.
Qed.

(** X8: The tolerance check of [test_percentage_maintenance] holds for every
    run, not only the scripted one: under percentages summing to 100,
    after at least one call and when every amount is at least 150, each
    bucket's [(bucket_total * 100) // total_remitted] is within 1 of its
    configured percentage. *)
Theorem bucket_percentages_within_one (s : RemittanceSplitter)
        (amounts : list Z) :
  validate (config s) = true ->
  amounts <> [] ->
  Forall (fun n => 150 <= n) amounts ->
  exists t,
    feed s amounts ContractTracker_init = Ok t /\
    Z.abs ((spending_total t * 100) / sum_amounts amounts
           - spending_percent (config s)) <= 1 /\
    Z.abs ((savings_total t * 100) / sum_amounts amounts
           - savings_percent (config s)) <= 1 /\
    Z.abs ((bills_total t * 100) / sum_amounts amounts
           - bills_percent (config s)) <= 1 /\
    Z.abs ((insurance_total t * 100) / sum_amounts amounts
           - insurance_percent (config s)) <= 1.
Proof.
  intros Hv Hne Hbig.
  pose proof (Forall_positive 150 amounts ltac:(lia) Hbig) as Hpos.
  pose proof (sum_amounts_lower 150 amounts Hbig) as Hlow.
  assert (Hk : 1 <= len amounts).
  { unfold len. destruct amounts; [contradiction | cbn [List.length]; lia]. }
  apply validate_sum in Hv.
  eexists. split; [apply (feed_closed_form s amounts Hpos)|].
  cbn [spending_total savings_total bills_total insurance_total
       ContractTracker_init].
  pose proof (bucket_sum_bounds (spending_percent (config s)) amounts).
  pose proof (bucket_sum_bounds (savings_percent (config s)) amounts).
  pose proof (bucket_sum_bounds (bills_percent (config s)) amounts).
  pose proof (insurance_run_bounds _ _ _ _ amounts Hv).
  repeat split;
    apply (realised_percentage _ _ _ (99 * len amounts) (297 * len amounts));
    lia.
Qed.

Lemma bucket_percentages_within_one_witness :
  exists t,
    feed (mkRemittanceSplitter config_40_30_20_10) [151; 977]
         ContractTracker_init = Ok t /\
    Z.abs ((spending_total t * 100) / sum_amounts [151; 977]
           - spending_percent config_40_30_20_10) <= 1 /\
    Z.abs ((savings_total t * 100) / sum_amounts [151; 977]
           - savings_percent config_40_30_20_10) <= 1 /\
    Z.abs ((bills_total t * 100) / sum_amounts [151; 977]
           - bills_percent config_40_30_20_10) <= 1 /\
    Z.abs ((insurance_total t * 100) / sum_amounts [151; 977]
           - insurance_percent config_40_30_20_10) <= 1.
Proof.
  apply (bucket_percentages_within_one
           (mkRemittanceSplitter config_40_30_20_10) [151; 977]).
  - reflexivity.
  - discriminate.
  - repeat (apply Forall_cons; [lia|]). apply Forall_nil.
Defined.

(** X9: Along a run under non-negative percentages summing to 100 no running
    total goes down: each total of the tracker a run returns is at least
    the corresponding total of the tracker it started from; started fresh,
    all four are non-negative. *)
Theorem feed_totals_grow (s : RemittanceSplitter) (amounts : list Z)
        (t t' : ContractTracker) :
  nonneg_percents (config s) -> validate (config s) = true ->
  feed s amounts t = Ok t' ->
  spending_total t <= spending_total t' /\
  savings_total t <= savings_total t' /\
  bills_total t <= bills_total t' /\
  insurance_total t <= insurance_total t'.
Proof.
  intros (Ha & Hb & Hc & Hd) Hv Hfeed.
  pose proof (feed_ok_positive _ _ _ _ Hfeed) as Hpos.
  rewrite (feed_closed_form s amounts Hpos) in Hfeed.
  injection Hfeed as <-. apply validate_sum in Hv.
  cbn [spending_total savings_total bills_total insurance_total].
  pose proof (bucket_sum_nonneg _ amounts Ha Hpos).
  pose proof (bucket_sum_nonneg _ amounts Hb Hpos).
  pose proof (bucket_sum_nonneg _ amounts Hc Hpos).
  pose proof (insurance_run_bounds _ _ _ _ amounts Hv).
  assert (0 <= sum_amounts amounts).
  { pose proof (sum_amounts_lower 0 amounts) as Hs.
    cbn in Hs. apply Hs. eapply Forall_impl; [|exact Hpos].
    cbn. intros; lia. }
  assert (0 <= insurance_percent (config s) * sum_amounts amounts) by nia.
  lia.
Qed.

Lemma feed_totals_grow_witness :
  spending_total ContractTracker_init
    <= spending_total (mkContractTracker 4 2 5 5) /\
  savings_total ContractTracker_init
    <= savings_total (mkContractTracker 4 2 5 5) /\
  bills_total ContractTracker_init
    <= bills_total (mkContractTracker 4 2 5 5) /\
  insurance_total ContractTracker_init
    <= insurance_total (mkContractTracker 4 2 5 5).
Proof.
  apply (feed_totals_grow (mkRemittanceSplitter config_40_30_20_10) [7; 9]
           ContractTracker_init (mkContractTracker 4 2 5 5)).
  - unfold nonneg_percents; cbn; lia.
  - reflexivity.
  - reflexivity.
Defined.

(** The hypothesis on the size of the amounts is needed: on the single
    amount 1 under (40,30,20,10) insurance holds everything, a realised
    100 percent against a configured 10. *)
Example percentages_need_large_amounts :
  exists t,
    feed (mkRemittanceSplitter config_40_30_20_10) [1]
         ContractTracker_init = Ok t /\
    (insurance_total t * 100) / sum_amounts [1] = 100.
Proof. eexists. split; reflexivity. Qed.

(** ** The scenarios on arbitrary inputs *)

Lemma assert_true (cond : bool) (msg : string) :
  cond = true -> assert cond msg = Ok tt.
Proof. intros ->. reflexivity. Qed.

Lemma calculate_split_consistent (s : RemittanceSplitter) (n : Z)
      (r : AllocationResult) :
  calculate_split s n = Ok r -> is_consistent r = true.
Proof.
  intros Hr. destruct (calculate_split_sum _ _ _ Hr) as (Ht & Hs & _).
  unfold is_consistent. rewrite Hs, Ht. apply Z.eqb_refl.
Qed.

Lemma positive_forallb (amounts : list Z) :
  forallb (fun n => 0 <? n) amounts = true <->
  Forall (fun n => 0 < n) amounts.
Proof.
  induction amounts as [|n rest IH]; cbn [forallb].
  - split; [constructor | reflexivity].
  - rewrite andb_true_iff, Z.ltb_lt, IH. split.
    + intros [? ?]. now constructor.
    + intros H. inversion H; subst. now split.
Qed.

(** X10: The single-remittance scenario is decided by its inputs alone: it
    returns true on a configuration summing to 100 and a positive amount,
    and otherwise raises the [ValueError] of the guard that rejects the
    input.  Neither of its two assertions can fail. *)
Theorem single_remittance_outcome (c : SplitConfig) (amount : Z) :
  single_remittance c amount =
  if validate c
  then if 0 <? amount
       then Ok true
       else Raise (ValueError "Total amount must be positive")
  else Raise (ValueError "Split percentages must sum to 100").
Proof.
  unfold single_remittance.
  destruct (validate c) eqn:Hv;
    [rewrite (init_ok c Hv) | rewrite (init_raise c Hv); reflexivity].
  cbn [bind].
  destruct (Z.ltb_spec 0 amount) as [Hn | Hn].
  - pose proof (calculate_split_pos (mkRemittanceSplitter c) amount Hn) as Hr.
    rewrite Hr. cbn [bind].
    rewrite (assert_true _ _ (calculate_split_consistent _ _ _ Hr)).
    cbn [bind]. rewrite assert_true; [reflexivity|].
    rewrite allocate_total. apply Z.eqb_eq.
    destruct (calculate_split_sum _ _ _ Hr) as (_ & Hs & _).
    rewrite Hs. reflexivity.
  - rewrite (calculate_split_nonpos _ amount Hn). reflexivity.
Qed.

(** The loop of [test_multiple_remittances] from any state: it ends in
    the tracker the plain run ends in, with the amounts added to
    [total_remitted], or raises on the first non-positive amount; the
    assertion inside the loop never fails. *)
Lemma multiple_loop (s : RemittanceSplitter) (amounts : list Z) :
  forall (i : Z) (t : ContractTracker) (tot : Z),
    for_each (multiple_body s) (enumerate amounts i) (t, tot) =
    match feed s amounts t with
    | Ok t' => Ok (t', tot + sum_amounts amounts)
    | Raise e => Raise e
    end.
Proof.
  induction amounts as [|n rest IH]; intros i t tot.
  - cbn. f_equal. f_equal. lia.
  - rewrite feed_cons. cbn [enumerate for_each multiple_body].
    destruct (calculate_split s n) as [r|e] eqn:Hr; cbn [bind];
      [|reflexivity].
    rewrite (assert_true _ _ (calculate_split_consistent _ _ _ Hr)).
    cbn [bind]. rewrite IH.
    destruct (feed s rest (allocate t r)); [|reflexivity].
    f_equal. f_equal. cbn [sum_amounts fold_right].
    fold (sum_amounts rest). lia.
Qed.

(** X11: The multiple-remittances scenario is decided by its inputs alone: it
    returns true on a configuration summing to 100 and a list of positive
    amounts (the empty list included), and otherwise raises the
    [ValueError] of the guard that rejects the input.  Neither the
    per-call assertion nor the cumulative one can fail. *)
Theorem multiple_remittances_outcome (c : SplitConfig)
        (remittances : list Z) :
  multiple_remittances c remittances =
  if validate c
  then if forallb (fun n => 0 <? n) remittances
       then Ok true
       else Raise (ValueError "Total amount must be positive")
  else Raise (ValueError "Split percentages must sum to 100").
Proof.
  unfold multiple_remittances.
  destruct (validate c) eqn:Hv;
    [rewrite (init_ok c Hv) | rewrite (init_raise c Hv); reflexivity].
  cbn [bind]. rewrite multiple_loop.
  destruct (forallb (fun n => 0 <? n) remittances) eqn:Hall.
  - apply positive_forallb in Hall.
    destruct (feed_total (mkRemittanceSplitter c) remittances Hall
                ContractTracker_init) as (t' & Hfeed & Htot).
    rewrite Hfeed. cbn [bind].
    rewrite assert_true; [reflexivity|].
    apply Z.eqb_eq. rewrite Htot. reflexivity.
  - destruct (feed (mkRemittanceSplitter c) remittances ContractTracker_init)
      as [t'|e] eqn:Hfeed.
    + apply feed_ok_positive, positive_forallb in Hfeed. congruence.
    + cbn [bind]. f_equal.
      clear Hall. revert Hfeed. generalize ContractTracker_init.
      induction remittances as [|n rest IH]; intros t; [discriminate|].
      rewrite feed_cons.
      destruct (Z.le_gt_cases n 0) as [Hn | Hn].
      * rewrite (calculate_split_nonpos _ n Hn). cbn [bind]. congruence.
      * rewrite (calculate_split_pos _ n Hn). cbn [bind]. apply IH.
Qed.

(** The loop of [test_rounding_edge_cases] never clears [all_passed]. *)
Lemma rounding_loop (s : RemittanceSplitter)
      (test_amounts : list (Z * string)) (all_passed : bool) :
  for_each (rounding_body s) test_amounts all_passed =
  if forallb (fun item => 0 <? fst item) test_amounts
  then Ok all_passed
  else Raise (ValueError "Total amount must be positive").
Proof.
  induction test_amounts as [|[n d] rest IH]; [reflexivity|].
  cbn [for_each rounding_body forallb fst].
  destruct (Z.ltb_spec 0 n) as [Hn | Hn].
  - pose proof (calculate_split_pos s n Hn) as Hr. rewrite Hr.
    cbn [bind]. rewrite (calculate_split_consistent _ _ _ Hr).
    cbn [negb bind andb]. exact IH.
  - rewrite (calculate_split_nonpos s n Hn). reflexivity.
Qed.

(** X12: The rounding scenario is decided by its inputs alone: it returns true
    on a configuration summing to 100 and positive amounts, whatever
    their values and descriptions, and otherwise raises the [ValueError]
    of the guard that rejects the input.  Its final assertion cannot
    fail: no positive amount is ever split inconsistently. *)
Theorem rounding_edge_cases_outcome (c : SplitConfig)
        (test_amounts : list (Z * string)) :
  rounding_edge_cases c test_amounts =
  if validate c
  then if forallb (fun item => 0 <? fst item) test_amounts
       then Ok true
       else Raise (ValueError "Total amount must be positive")
  else Raise (ValueError "Split percentages must sum to 100").
Proof.
  unfold rounding_edge_cases.
  destruct (validate c) eqn:Hv;
    [rewrite (init_ok c Hv) | rewrite (init_raise c Hv); reflexivity].
  cbn [bind]. rewrite rounding_loop.
  destruct (forallb (fun item => 0 <? fst item) test_amounts); reflexivity.
Qed.

(** ** [main] *)

Lemma run_tests_counts (tests : list (result bool)) :
  forall passed failed,
    run_tests tests (passed, failed) =
    (passed + count returns_true tests, failed + count raises tests).
Proof.
  unfold run_tests, count.
  induction tests as [|t rest IH]; intros passed failed.
  - cbn. f_equal; lia.
  - cbn [fold_left main_body filter].
    destruct t as [[|]|[m|m]]; cbn [returns_true raises];
      rewrite IH; cbn [List.length]; rewrite ?Nat2Z.inj_succ; f_equal; lia.
Qed.

Lemma count_raises_zero (tests : list (result bool)) :
  count raises tests = 0 <-> existsb raises tests = false.
Proof.
  unfold count. induction tests as [|t rest IH]; [cbn; tauto|].
  cbn [filter existsb]. destruct (raises t); cbn [orb List.length].
  - rewrite Nat2Z.inj_succ. split; [lia | discriminate].
  - exact IH.
Qed.

(** X13: What [main] counts and returns, for any list of tests: [passed] is
    the number of tests that return true, [failed] the number that
    raise, and the exit code is 1 exactly when some test raises.  A test
    that returns false is counted in neither and leaves the exit code
    at 0. *)
Theorem main_on_outcome (tests : list (result bool)) :
  run_tests tests (0, 0) = (count returns_true tests, count raises tests) /\
  main_on tests = (if existsb raises tests then 1 else 0) /\
  main_on (tests ++ [Ok false]) = main_on tests.
Proof.
  assert (Hexit : forall l,
            main_on l = if existsb raises l then 1 else 0).
  { intros l. unfold main_on. rewrite run_tests_counts.
    pose proof (count_raises_zero l) as Hz.
    destruct (existsb raises l).
    - destruct (Z.eqb_spec (0 + count raises l) 0) as [E|E]; [|reflexivity].
      assert (count raises l = 0) as E' by lia.
      apply Hz in E'. discriminate.
    - rewrite (proj2 Hz eq_refl). reflexivity. }
  split; [|split].
  - rewrite run_tests_counts. f_equal.
  - apply Hexit.
  - rewrite !Hexit, existsb_app. cbn. now rewrite orb_false_r.
Qed.

(** The script as written: the five scenarios all return true, so [main]
    counts 5 passed and 0 failed and returns exit code 0. *)
Theorem main_passes :
  run_tests [test_single_remittance; test_multiple_remittances;
             test_rounding_edge_cases; test_high_volume;
             test_percentage_maintenance] (0, 0) = (5, 0) /\
  main = 0.
Proof. split; vm_compute; reflexivity. Qed.
